(** * SharkShark (Reef Rush): the simulation step of [game/core/engine]

    A shallow embedding of the engine module (types.ts, math.ts and the
    engine itself) and the properties of its tick function.

    Conventions of the embedding.
    - A JavaScript [number] is an exact rational ([Q]); NaN and the
      infinities are not represented.  Comparisons of numbers are the
      boolean comparisons of [Q]; [===] on numbers is [Qeq_bool].
    - [Math.hypot] and [Math.sin] have no rational counterpart: they are
      section variables, so every theorem holds for every interpretation
      of them.
    - [Math.random] reads the next value of an explicit source of draws
      ([Rng]); functions that draw live in the state monad [Rand].
    - The difficulty table of [./config] is a section variable.
    - Objects mutated in place become values threaded through the
      functions; the [while] loop of [updateGrowthAndLives] takes fuel. *)

From Stdlib Require Import String QArith Qminmax Qround Qabs ZArith List Bool Lia Lqa.
Import ListNotations.
Local Open Scope Q_scope.

(** ** types.ts *)

Inductive DifficultyKey := easy | normal | hard.

Record Vec2 := mkVec2 { x : Q; y : Q }.

(** [FishSizeClass = 1 | 2 | 3 | 4 | 5] *)
Inductive FishSizeClass := size1 | size2 | size3 | size4 | size5.

Definition sizeValue (c : FishSizeClass) : Q :=
  match c with
  | size1 => 1 | size2 => 2 | size3 => 3 | size4 => 4 | size5 => 5
  end.

Inductive EntityKind := prey | predator | apex | hazard.

Record Combat := mkCombat {
  maxHealth : Q;
  health : Q;
  tailWindowBias : Q;
  flashUntil : Q;
  lastHitAt : Q
}.

Record Entity := mkEntity {
  id : Q;
  kind : EntityKind;
  sizeClass : option FishSizeClass;
  variant : option Q;
  pos : Vec2;
  vel : Vec2;
  radius : Q;
  pointsOnEat : option Q;
  combat : option Combat
}.

Record DifficultyProfile := mkDifficulty {
  key : DifficultyKey;
  label : string;
  scoreMultiplier : Q;
  startingLives : Q;
  playerSpeed : Q;
  playerTurnLerp : Q;
  playerHitboxScale : Q;
  enemyHitboxScale : Q;
  preySpawnPerSecond : Q;
  predatorSpawnPerSecond : Q;
  apexSpawnPerSecond : Q;
  hazardSpawnPerSecond : Q;
  maxPrey : Q;
  maxPredators : Q;
  maxApex : Q;
  maxHazards : Q;
  predatorAggression : Q;
  apexAggression : Q;
  apexMaxHealth : Q;
  apexTailHitLeniency : Q;
  reactionSmoothing : Q;
  graceSecondsAfterRespawn : Q;
  extraLifeScoreStep : Q
}.

Inductive GameModeState := title | playing | paused | gameOver.

Record PlayerState := mkPlayer {
  player_pos : Vec2;
  player_vel : Vec2;
  player_radius : Q;
  sizeTier : Q;
  lives : Q;
  invulnerableUntil : Q
}.

Record RunProgress := mkRun {
  score : Q;
  timeSeconds : Q;
  preyEaten : Q;
  predatorsAvoided : Q;
  nextGrowthScore : Q;
  nextExtraLifeScore : Q;
  milestone : Q
}.

Record Arena := mkArena { width : Q; height : Q }.

(** [Record<EntityKind, number>] *)
Record SpawnTimers := mkTimers {
  timer_prey : Q;
  timer_predator : Q;
  timer_apex : Q;
  timer_hazard : Q
}.

Record ApexThreat := mkThreat {
  activeCount : Q;
  intensity : Q;
  threat_lastHitAt : Q;
  threat_lastKillAt : Q
}.

Inductive GameEvent :=
| EvScore (amount : Q)
| EvEat (k : EntityKind) (sz : option FishSizeClass)
| EvPlayerHit (livesRemaining : Q)
| EvExtraLife (newLives : Q)
| EvGrowth (newTier : Q)
| EvGameOver (finalScore : Q)
| EvMilestone (value : Q)
| EvApexHit (entityId damage hp maxHp points : Q) (at_pos : Vec2)
| EvApexKilled (entityId points : Q) (at_pos : Vec2)
| EvApexIntensity (value : Q).

Record GameState := mkState {
  seed : Q;
  elapsedMs : Q;
  mode : GameModeState;
  arena : Arena;
  difficulty : DifficultyProfile;
  player : PlayerState;
  entities : list Entity;
  run : RunProgress;
  nextEntityId : Q;
  spawnTimers : SpawnTimers;
  apexThreat : ApexThreat;
  pendingEvents : list GameEvent
}.

Record InputState := mkInput { movement : Vec2; pausePressed : bool }.

(** ** Decidable equalities used by the code's [===] on tags *)

Definition kind_eqb (a b : EntityKind) : bool :=
  match a, b with
  | prey, prey | predator, predator | apex, apex | hazard, hazard => true
  | _, _ => false
  end.

Definition mode_eqb (a b : GameModeState) : bool :=
  match a, b with
  | title, title | playing, playing | paused, paused | gameOver, gameOver => true
  | _, _ => false
  end.

(** ** Numbers *)

Definition Qlt_bool (a b : Q) : bool := negb (Qle_bool b a).

Definition ofNat (n : nat) : Q := inject_Z (Z.of_nat n).

Definition Math_floor (v : Q) : Q := inject_Z (Qfloor v).

(** [Math.round]: the nearest integer, halves rounded up. *)
Definition Math_round (v : Q) : Q := inject_Z (Qfloor (v + 0.5)).

Definition Math_sign (v : Q) : Q :=
  if Qlt_bool 0 v then 1 else if Qlt_bool v 0 then -1 else 0.

(** ** math.ts (the part without [Math.hypot]) *)

Definition clamp (v lo hi : Q) : Q := Qmax lo (Qmin hi v).
Definition lerp (a b t : Q) : Q := a + (b - a) * t.
Definition scale (v : Vec2) (s : Q) : Vec2 := mkVec2 (x v * s) (y v * s).
Definition add (a b : Vec2) : Vec2 := mkVec2 (x a + x b) (y a + y b).
Definition sub (a b : Vec2) : Vec2 := mkVec2 (x a - x b) (y a - y b).

(** ** The source of random draws *)

Record Rng := mkRng { draws : nat -> Q; cursor : nat }.

Definition Rand (A : Type) : Type := Rng -> A * Rng.

Definition ret {A} (a : A) : Rand A := fun g => (a, g).

Definition bind {A B} (m : Rand A) (k : A -> Rand B) : Rand B :=
  fun g => let (a, g') := m g in k a g'.

Notation "v <- m ;; k" := (bind m (fun v => k))
  (at level 61, m at next level, right associativity).

(** [Math.random()] *)
Definition Math_random : Rand Q :=
  fun g => (draws g (cursor g), mkRng (draws g) (S (cursor g))).

(** [rnd] of math.ts *)
Definition rnd (lo hi : Q) : Rand Q :=
  r <- Math_random ;; ret (lo + r * (hi - lo)).

(** ** Field updates *)

Definition set_mode (s : GameState) (m : GameModeState) : GameState :=
  mkState (seed s) (elapsedMs s) m (arena s) (difficulty s) (player s)
    (entities s) (run s) (nextEntityId s) (spawnTimers s) (apexThreat s)
    (pendingEvents s).

Definition set_player (s : GameState) (p : PlayerState) : GameState :=
  mkState (seed s) (elapsedMs s) (mode s) (arena s) (difficulty s) p
    (entities s) (run s) (nextEntityId s) (spawnTimers s) (apexThreat s)
    (pendingEvents s).

Definition set_entities (s : GameState) (l : list Entity) : GameState :=
  mkState (seed s) (elapsedMs s) (mode s) (arena s) (difficulty s) (player s)
    l (run s) (nextEntityId s) (spawnTimers s) (apexThreat s)
    (pendingEvents s).

Definition set_run (s : GameState) (r : RunProgress) : GameState :=
  mkState (seed s) (elapsedMs s) (mode s) (arena s) (difficulty s) (player s)
    (entities s) r (nextEntityId s) (spawnTimers s) (apexThreat s)
    (pendingEvents s).

Definition set_nextEntityId (s : GameState) (n : Q) : GameState :=
  mkState (seed s) (elapsedMs s) (mode s) (arena s) (difficulty s) (player s)
    (entities s) (run s) n (spawnTimers s) (apexThreat s) (pendingEvents s).

Definition set_spawnTimers (s : GameState) (t : SpawnTimers) : GameState :=
  mkState (seed s) (elapsedMs s) (mode s) (arena s) (difficulty s) (player s)
    (entities s) (run s) (nextEntityId s) t (apexThreat s) (pendingEvents s).

Definition set_apexThreat (s : GameState) (a : ApexThreat) : GameState :=
  mkState (seed s) (elapsedMs s) (mode s) (arena s) (difficulty s) (player s)
    (entities s) (run s) (nextEntityId s) (spawnTimers s) a (pendingEvents s).

Definition set_pendingEvents (s : GameState) (l : list GameEvent) : GameState :=
  mkState (seed s) (elapsedMs s) (mode s) (arena s) (difficulty s) (player s)
    (entities s) (run s) (nextEntityId s) (spawnTimers s) (apexThreat s) l.

Definition push_events (s : GameState) (l : list GameEvent) : GameState :=
  set_pendingEvents s (pendingEvents s ++ l).

Definition set_score (r : RunProgress) (v : Q) : RunProgress :=
  mkRun v (timeSeconds r) (preyEaten r) (predatorsAvoided r)
    (nextGrowthScore r) (nextExtraLifeScore r) (milestone r).

Definition set_timeSeconds (r : RunProgress) (v : Q) : RunProgress :=
  mkRun (score r) v (preyEaten r) (predatorsAvoided r)
    (nextGrowthScore r) (nextExtraLifeScore r) (milestone r).

Definition set_preyEaten (r : RunProgress) (v : Q) : RunProgress :=
  mkRun (score r) (timeSeconds r) v (predatorsAvoided r)
    (nextGrowthScore r) (nextExtraLifeScore r) (milestone r).

Definition set_nextGrowthScore (r : RunProgress) (v : Q) : RunProgress :=
  mkRun (score r) (timeSeconds r) (preyEaten r) (predatorsAvoided r)
    v (nextExtraLifeScore r) (milestone r).

Definition set_nextExtraLifeScore (r : RunProgress) (v : Q) : RunProgress :=
  mkRun (score r) (timeSeconds r) (preyEaten r) (predatorsAvoided r)
    (nextGrowthScore r) v (milestone r).

Definition set_milestone (r : RunProgress) (v : Q) : RunProgress :=
  mkRun (score r) (timeSeconds r) (preyEaten r) (predatorsAvoided r)
    (nextGrowthScore r) (nextExtraLifeScore r) v.

Definition set_pos (e : Entity) (p : Vec2) : Entity :=
  mkEntity (id e) (kind e) (sizeClass e) (variant e) p (vel e) (radius e)
    (pointsOnEat e) (combat e).

Definition set_vel (e : Entity) (v : Vec2) : Entity :=
  mkEntity (id e) (kind e) (sizeClass e) (variant e) (pos e) v (radius e)
    (pointsOnEat e) (combat e).

Definition set_combat (e : Entity) (c : option Combat) : Entity :=
  mkEntity (id e) (kind e) (sizeClass e) (variant e) (pos e) (vel e) (radius e)
    (pointsOnEat e) c.

Definition getTimer (t : SpawnTimers) (k : EntityKind) : Q :=
  match k with
  | prey => timer_prey t
  | predator => timer_predator t
  | apex => timer_apex t
  | hazard => timer_hazard t
  end.

Definition setTimer (t : SpawnTimers) (k : EntityKind) (v : Q) : SpawnTimers :=
  match k with
  | prey => mkTimers v (timer_predator t) (timer_apex t) (timer_hazard t)
  | predator => mkTimers (timer_prey t) v (timer_apex t) (timer_hazard t)
  | apex => mkTimers (timer_prey t) (timer_predator t) v (timer_hazard t)
  | hazard => mkTimers (timer_prey t) (timer_predator t) (timer_apex t) v
  end.

Section Engine.

(** [Math.hypot], [Math.sin] and the [difficulties] table of [./config]. *)
Variable Math_hypot : Q -> Q -> Q.
Variable Math_sin : Q -> Q.
Variable difficulties : DifficultyKey -> DifficultyProfile.

(** ** math.ts (the part with [Math.hypot]) *)

Definition len (v : Vec2) : Q := Math_hypot (x v) (y v).

Definition normalize (v : Vec2) : Vec2 :=
  let l := len v in
  if Qlt_bool 0 l then mkVec2 (x v / l) (y v / l) else mkVec2 0 0.

Definition dist (a b : Vec2) : Q := Math_hypot (x a - x b) (y a - y b).

(** ** engine: constants and lookups *)

Definition ARENA : Arena := mkArena 960 540.
Definition BASE_PLAYER_RADIUS : Q := 14.
Definition SIZE_STEP : Q := 4.
Definition MAX_SIZE_TIER : Q := 5.
Definition APEX_HIT_COOLDOWN_SECONDS : Q := 0.45.
Definition NPC_SIZE_CLASSES : list FishSizeClass := [size1; size2; size3; size4].

Definition playerRadiusForSizeTier (tier : Q) : Q :=
  let v := Qmax 1 (Qmin MAX_SIZE_TIER (Math_round tier)) in
  if Qeq_bool v 1 then 9
  else if Qeq_bool v 2 then 12
  else if Qeq_bool v 3 then 17
  else if Qeq_bool v 4 then 22
  else if Qeq_bool v 5 then 31
  else BASE_PLAYER_RADIUS.

(** [spawnRates] maps a kind to its own timer. *)
Definition spawnRates (k : EntityKind) : EntityKind := k.

Definition entitySpeed (k : EntityKind) (aggression : Q) : Rand Q :=
  match k with
  | prey => rnd 70 130
  | predator => r <- rnd 95 170 ;; ret (r * (0.8 + aggression * 0.5))
  | apex => r <- rnd 140 210 ;; ret (r * (0.9 + aggression * 0.5))
  | hazard => rnd 55 105
  end.

Definition npcCruiseSpeed (c : FishSizeClass) : Rand Q :=
  match c with
  | size1 => rnd 95 145
  | size2 => rnd 85 130
  | size3 => rnd 78 122
  | size4 => rnd 72 112
  | size5 => rnd 70 100
  end.

Definition chaseSpeed (k : EntityKind) (aggression : Q) : Q :=
  match k with
  | predator => 95 + aggression * 55
  | apex => 120 + aggression * 75
  | _ => 0
  end.

Definition npcRadiusForSizeClass (c : FishSizeClass) : Rand Q :=
  match c with
  | size1 => rnd 7 10
  | size2 => rnd 10 14
  | size3 => rnd 14 19
  | size4 => rnd 19 25
  | size5 => rnd 26 36
  end.

Definition entityRadius (k : EntityKind) (c : option FishSizeClass) : Rand Q :=
  match k with
  | prey => npcRadiusForSizeClass (match c with Some v => v | None => size1 end)
  | predator => npcRadiusForSizeClass (match c with Some v => v | None => size3 end)
  | apex => npcRadiusForSizeClass size5
  | hazard => rnd 14 18
  end.

(** [fishExtents] returns [{rx, ry}]. *)
Definition fishExtents (r scaleFactor : Q) : Q * Q :=
  (r * 1.34 * scaleFactor, r * 0.78 * scaleFactor).

Definition countByKind (state : GameState) (k : EntityKind) : Q :=
  ofNat (length (filter (fun e => kind_eqb (kind e) k) (entities state))).

Definition spawnCapForKind (state : GameState) (k : EntityKind) : Q :=
  let d := difficulty state in
  match k with
  | prey => maxPrey d
  | predator => maxPredators d
  | apex => maxApex d
  | hazard => maxHazards d
  end.

Definition spawnRateForKind (state : GameState) (k : EntityKind) : Q :=
  let d := difficulty state in
  match k with
  | prey => preySpawnPerSecond d
  | predator => predatorSpawnPerSecond d
  | apex => apexSpawnPerSecond d
  | hazard => hazardSpawnPerSecond d
  end.

Definition isKindUnlocked (state : GameState) (k : EntityKind) : bool :=
  let t := timeSeconds (run state) in
  let s := score (run state) in
  let size := sizeTier (player state) in
  match k with
  | prey => true
  | predator => Qle_bool 2 t
  | apex =>
      match key (difficulty state) with
      | easy => Qle_bool 24 t
      | normal => Qle_bool 20 t
      | hard => Qle_bool 16 t
      end
  | hazard =>
      match key (difficulty state) with
      | easy => Qle_bool 38 t && (Qle_bool 2500 s || Qle_bool 4 size)
      | normal => Qle_bool 30 t && (Qle_bool 3200 s || Qle_bool 4 size)
      | hard => Qle_bool 22 t && (Qle_bool 4000 s || Qle_bool 4 size)
      end
  end.

(** [channel] is ['prey' | 'predator']: any kind other than [prey] takes
    the predator table, as the code's [if (channel === 'prey')] does. *)
Definition pickNpcSizeForSpawn (state : GameState) (channel : EntityKind)
  : Rand FishSizeClass :=
  let p := sizeTier (player state) in
  let t := timeSeconds (run state) in
  r <- Math_random ;;
  ret (if kind_eqb channel prey then
         if Qlt_bool t 12 then (if Qlt_bool r 0.8 then size1 else size2)
         else if Qle_bool p 1 then (if Qlt_bool r 0.78 then size1 else size2)
         else if Qeq_bool p 2 then
           (if Qlt_bool r 0.58 then size1 else if Qlt_bool r 0.93 then size2 else size3)
         else if Qeq_bool p 3 then
           (if Qlt_bool r 0.18 then size1 else if Qlt_bool r 0.52 then size2
            else if Qlt_bool r 0.92 then size3 else size4)
         else (if Qlt_bool r 0.22 then size2 else if Qlt_bool r 0.62 then size3 else size4)
       else
         if Qlt_bool t 10 then size2
         else if Qle_bool p 1 then (if Qlt_bool r 0.78 then size2 else size3)
         else if Qeq_bool p 2 then
           (if Qlt_bool r 0.5 then size2 else if Qlt_bool r 0.92 then size3 else size4)
         else if Qeq_bool p 3 then (if Qlt_bool r 0.42 then size3 else size4)
         else (if Qlt_bool r 0.52 then size3 else size4)).

Definition isNpcEdible (playerTier : Q) (npcSize : FishSizeClass) : bool :=
  Qle_bool (sizeValue npcSize) playerTier.

Definition doesNpcAttackPlayer (playerTier : Q) (npcSize : FishSizeClass) : bool :=
  Qlt_bool playerTier (sizeValue npcSize).

Definition isFish (k : EntityKind) : bool :=
  kind_eqb k prey || kind_eqb k predator.

Definition canEat (playerTier : Q) (entity : Entity) : bool :=
  match sizeClass entity with
  | Some c => if isFish (kind entity) then isNpcEdible playerTier c else false
  | None => false
  end.

Definition pointsForEat (entity : Entity) (multiplier : Q) : Q :=
  let base :=
    match sizeClass entity with
    | Some c =>
        if isFish (kind entity) then
          match c with
          | size1 => 90 | size2 => 135 | size3 => 175 | _ => 225
          end
        else 0
    | None => 0
    end in
  Math_floor (base * multiplier).

Definition pointsForApexTailHit (multiplier : Q) : Q :=
  Math_floor (500 * multiplier).

Definition apexTailDamageForPlayer (playerTier : Q) : Q :=
  if Qle_bool 5 playerTier then 3
  else if Qle_bool 3 playerTier then 2 else 1.

Definition milestoneForScore (s : Q) : Q := Math_floor (s / 1000).

(** The quotients of the ellipse test divide by [rx * rx] and [ry * ry].
    When one of them is zero JavaScript yields Infinity or NaN, and the
    comparison with 1 is false: the model says so explicitly. *)
Definition overlapsFishFootprint (p : PlayerState) (entity : Entity)
    (playerScale enemyScale : Q) : bool :=
  let pe := fishExtents (player_radius p) playerScale in
  let e0 := if kind_eqb (kind entity) hazard
            then (radius entity * enemyScale, radius entity * enemyScale)
            else fishExtents (radius entity) enemyScale in
  let e := if kind_eqb (kind entity) apex
           then (fst e0 * 1.18, snd e0 * 0.96) else e0 in
  let dx := Qabs (x (player_pos p) - x (pos entity)) in
  let dy := Qabs (y (player_pos p) - y (pos entity)) in
  let rx := fst pe + fst e in
  let ry := snd pe + snd e in
  if Qeq_bool (rx * rx) 0 || Qeq_bool (ry * ry) 0 then false
  else Qle_bool ((dx * dx) / (rx * rx) + (dy * dy) / (ry * ry)) 1.

(** ** engine: construction of states *)





(** ** engine: spawning *)

(** [wrap] on a position and radius; the four tests run in sequence on
    the updated coordinates. *)
Definition wrap (state : GameState) (p : Vec2) (r : Q) : Vec2 :=
  let w := width (arena state) in
  let h := height (arena state) in
  let x1 := if Qlt_bool (x p) (- r) then w + r else x p in
  let x2 := if Qlt_bool (w + r) x1 then - r else x1 in
  let y1 := if Qlt_bool (y p) (- r) then h + r else y p in
  let y2 := if Qlt_bool (h + r) y1 then - r else y1 in
  mkVec2 x2 y2.

Definition spawnAtEdge (state : GameState) (k : EntityKind) : Rand Entity :=
  npcSize <- (if isFish k
              then (c <- pickNpcSizeForSpawn state k ;; ret (Some c))
              else ret None) ;;
  e <- rnd 0 4 ;;
  let edge := Math_floor e in
  r <- entityRadius k npcSize ;;
  let w := width (arena state) in
  let h := height (arena state) in
  let p := mkVec2 0 0 in
  p <- (if Qeq_bool edge 0 then (v <- rnd 0 h ;; ret (mkVec2 (- r) v)) else ret p) ;;
  p <- (if Qeq_bool edge 1 then (v <- rnd 0 h ;; ret (mkVec2 (w + r) v)) else ret p) ;;
  p <- (if Qeq_bool edge 2 then (v <- rnd 0 w ;; ret (mkVec2 v (- r))) else ret p) ;;
  p <- (if Qeq_bool edge 3 then (v <- rnd 0 w ;; ret (mkVec2 v (h + r))) else ret p) ;;
  let toCenter := normalize (sub (mkVec2 (w / 2) (h / 2)) p) in
  let d := difficulty state in
  let aggr := match k with
              | predator => predatorAggression d
              | apex => apexAggression d
              | _ => 0.2
              end in
  bx <- rnd (-1) 1 ;;
  by_ <- rnd (-1) 1 ;;
  let randomBias := normalize (mkVec2 bx by_) in
  let heading := normalize (mkVec2 (lerp (x randomBias) (x toCenter) aggr)
                                   (lerp (y randomBias) (y toCenter) aggr)) in
  speed <- (match npcSize with
            | Some c => npcCruiseSpeed c
            | None => entitySpeed k aggr
            end) ;;
  let entity := mkEntity (nextEntityId state) k
                  (if kind_eqb k apex then Some size5 else npcSize)
                  (Some 1) p (scale heading speed) r None None in
  if kind_eqb k apex then
    bias <- rnd 0.52 0.68 ;;
    ret (set_combat entity
           (Some (mkCombat (apexMaxHealth d) (apexMaxHealth d) bias (-1) (-999))))
  else ret entity.

(** The body of the [forEach] of [maybeSpawn], for one kind. *)
Definition maybeSpawnKind (dt : Q) (state : GameState) (k : EntityKind)
  : Rand GameState :=
  if negb (isKindUnlocked state k) then ret state
  else
    let state := set_spawnTimers state
                   (setTimer (spawnTimers state) (spawnRates k)
                      (getTimer (spawnTimers state) (spawnRates k) + dt)) in
    let rate := spawnRateForKind state k in
    if Qle_bool rate 0 then ret state
    else
      let interval := 1 / rate in
      if Qle_bool interval (getTimer (spawnTimers state) k)
         && Qlt_bool (countByKind state k) (spawnCapForKind state k)
      then
        let state := set_spawnTimers state (setTimer (spawnTimers state) k 0) in
        entity <- spawnAtEdge state k ;;
        let state := set_entities state (entities state ++ [entity]) in
        ret (set_nextEntityId state (nextEntityId state + 1))
      else ret state.

Fixpoint forEachKind (f : GameState -> EntityKind -> Rand GameState)
    (state : GameState) (ks : list EntityKind) : Rand GameState :=
  match ks with
  | [] => ret state
  | k :: rest => state' <- f state k ;; forEachKind f state' rest
  end.

Definition maybeSpawn (state : GameState) (dt : Q) : Rand GameState :=
  forEachKind (maybeSpawnKind dt) state [prey; predator; apex; hazard].

(** ** engine: steering *)

(** The prey and predator block of [updateEntityAI]. *)
Definition steerFish (state : GameState) (dt : Q) (entity : Entity)
  : Rand Entity :=
  let p := player state in
  if isFish (kind entity) then
    let npcSize := match sizeClass entity with
                   | Some c => c
                   | None => if kind_eqb (kind entity) prey then size1 else size3
                   end in
    let sizeDelta := sizeValue npcSize - sizeTier p in
    let distanceToPlayer := dist (pos entity) (player_pos p) in
    if negb (doesNpcAttackPlayer (sizeTier p) npcSize)
       && Qlt_bool distanceToPlayer (68 + sizeValue npcSize * 10)
    then
      let away := normalize (sub (pos entity) (player_pos p)) in
      cruise <- npcCruiseSpeed npcSize ;;
      let fleeSpeed := cruise + 10 in
      let target := scale away fleeSpeed in
      let fleeTurn := 0.025 + Qmax 0 (sizeTier p - sizeValue npcSize) * 0.006 in
      ret (set_vel entity (mkVec2 (lerp (x (vel entity)) (x target) fleeTurn)
                                  (lerp (y (vel entity)) (y target) fleeTurn)))
    else if doesNpcAttackPlayer (sizeTier p) npcSize then
      let chase := normalize (sub (player_pos p) (pos entity)) in
      let aggression :=
        clamp (predatorAggression (difficulty state)
               + Qmax 0 (sizeDelta - 1) * 0.08) 0.2 1 in
      let targetSpeed := 88 + sizeValue npcSize * 10 + aggression * 36 in
      let target := scale chase targetSpeed in
      let turn := (0.022 + aggression * 0.045) * dt * 60 in
      ret (set_vel entity (mkVec2 (lerp (x (vel entity)) (x target) turn)
                                  (lerp (y (vel entity)) (y target) turn)))
    else ret entity
  else ret entity.

(** The apex block of [updateEntityAI]. *)
Definition steerApex (state : GameState) (dt : Q) (entity : Entity) : Entity :=
  let p := player state in
  if kind_eqb (kind entity) apex then
    let chase := normalize (sub (player_pos p) (pos entity)) in
    let aggression := apexAggression (difficulty state) in
    let targetSpeed := chaseSpeed (kind entity) aggression in
    let target := scale chase targetSpeed in
    let turnBase := 0.018 in
    let turnScale := 0.03 in
    set_vel entity
      (mkVec2 (lerp (x (vel entity)) (x target)
                 ((turnBase + aggression * turnScale) * dt * 60))
              (lerp (y (vel entity)) (y target)
                 ((turnBase + aggression * turnScale) * dt * 60)))
  else entity.

(** The hazard block of [updateEntityAI]. *)
Definition driftHazard (state : GameState) (entity : Entity) : Entity :=
  if kind_eqb (kind entity) hazard then
    set_vel entity
      (mkVec2 (x (vel entity))
              (y (vel entity)
               + Math_sin ((elapsedMs state + id entity * 47) / 400) * 0.4))
  else entity.

Definition updateEntityAI (state : GameState) (dt : Q) (entity : Entity)
  : Rand Entity :=
  entity <- steerFish state dt entity ;;
  let entity := steerApex state dt entity in
  let entity := driftHazard state entity in
  let entity := set_pos entity (add (pos entity) (scale (vel entity) dt)) in
  ret (set_pos entity (wrap state (pos entity) (radius entity))).

(** [state.entities.forEach(f)]: [f] rewrites each entity in place. *)
Fixpoint forEachEntity (f : Entity -> Rand Entity) (l : list Entity)
  : Rand (list Entity) :=
  match l with
  | [] => ret []
  | e :: rest => e' <- f e ;; rest' <- forEachEntity f rest ;; ret (e' :: rest')
  end.

(** ** engine: collisions *)

Definition resetPlayerAfterHit (state : GameState) : Rand GameState :=
  v <- rnd 100 (height (arena state) - 100) ;;
  let p := player state in
  let p := mkPlayer (mkVec2 (width (arena state) * 0.18) v) (player_vel p)
             (player_radius p) (sizeTier p) (lives p) (invulnerableUntil p) in
  let p := mkPlayer (player_pos p) (mkVec2 0 0)
             (player_radius p) (sizeTier p) (lives p) (invulnerableUntil p) in
  let p := mkPlayer (player_pos p) (player_vel p) (player_radius p) (sizeTier p)
             (lives p)
             (timeSeconds (run state)
              + graceSecondsAfterRespawn (difficulty state)) in
  let state := set_player state p in
  ret (set_entities state
         (filter (fun e => Qlt_bool 120 (dist (pos e) (player_pos (player state))))
                 (entities state))).

(** The result of [handlePlayerCollision]: its return value
    [{consumed, events}], with the state and the entity it has mutated. *)
Record Collision := mkCollision {
  c_state : GameState;
  c_entity : Entity;
  consumed : bool;
  events : list GameEvent
}.

(** The apex test of [handlePlayerCollision]:
    [tailHitOpen && hitCooldownReady]. *)
Definition tailHitReady (state : GameState) (entity : Entity) (c : Combat) : bool :=
  let d := difficulty state in
  let dx := x (player_pos (player state)) - x (pos entity) in
  let apexFacingX := if Qeq_bool (x (vel entity)) 0 then 1
                     else Math_sign (x (vel entity)) in
  let behindApex := Qlt_bool (dx * apexFacingX) 0 in
  let tailBandWidth :=
    radius entity * (0.8 + tailWindowBias c) * apexTailHitLeniency d in
  let nearTail := Qle_bool (tailBandWidth * 0.24) (Qabs dx) in
  let tailHitOpen := behindApex && nearTail in
  let hitCooldownReady :=
    Qle_bool APEX_HIT_COOLDOWN_SECONDS (timeSeconds (run state) - lastHitAt c) in
  tailHitOpen && hitCooldownReady.

(** The body of [if (tailHitOpen && hitCooldownReady)]. *)
Definition applyTailHit (state : GameState) (entity : Entity) (c : Combat)
  : Collision :=
  let d := difficulty state in
  let now := timeSeconds (run state) in
  let c := mkCombat (maxHealth c) (health c) (tailWindowBias c) (flashUntil c) now in
  let c := mkCombat (maxHealth c) (health c) (tailWindowBias c) (now + 0.18)
             (lastHitAt c) in
  let damage := apexTailDamageForPlayer (sizeTier (player state)) in
  let c := mkCombat (maxHealth c) (health c - damage) (tailWindowBias c)
             (flashUntil c) (lastHitAt c) in
  let entity := set_combat entity (Some c) in
  let points := pointsForApexTailHit (scoreMultiplier d) in
  let state := set_run state (set_score (run state) (score (run state) + points)) in
  let t := apexThreat state in
  let t := mkThreat (activeCount t) (intensity t) now (threat_lastKillAt t) in
  let hitIntensity := clamp (1 - health c / maxHealth c) 0 1 in
  let t := mkThreat (activeCount t) (Qmax (intensity t) hitIntensity)
             (threat_lastHitAt t) (threat_lastKillAt t) in
  let state := set_apexThreat state t in
  let evs := [ EvApexHit (id entity) damage (Qmax (health c) 0) (maxHealth c)
                 points (pos entity);
               EvScore points;
               EvApexIntensity (intensity t) ] in
  if Qle_bool (health c) 0 then
    let t := mkThreat (activeCount t) (intensity t) (threat_lastHitAt t) now in
    let t := mkThreat (activeCount t) 0 (threat_lastHitAt t) (threat_lastKillAt t) in
    let state := set_apexThreat state t in
    let killBonus := points * 2 in
    let state := set_run state (set_score (run state) (score (run state) + killBonus)) in
    mkCollision state entity true
      (evs ++ [ EvScore killBonus;
                EvApexKilled (id entity) killBonus (pos entity) ])
  else mkCollision state entity false evs.

(** [handlePlayerCollision] after its apex block: the edible test and
    the hostile contact. *)
Definition resolveContact (state : GameState) (entity : Entity)
    (invulnerable : bool) : Rand Collision :=
  let d := difficulty state in
  let edible := canEat (sizeTier (player state)) entity in
  if edible then
    let points := pointsForEat entity (scoreMultiplier d) in
    let state := set_run state (set_score (run state) (score (run state) + points)) in
    let state := if isFish (kind entity)
                 then set_run state
                        (set_preyEaten (run state) (preyEaten (run state) + 1))
                 else state in
    ret (mkCollision state entity true
           [ EvEat (kind entity) (sizeClass entity); EvScore points ])
  else if negb invulnerable then
    let p := player state in
    let state := set_player state
                   (mkPlayer (player_pos p) (player_vel p) (player_radius p)
                      (sizeTier p) (lives p - 1) (invulnerableUntil p)) in
    let evs := [ EvPlayerHit (lives (player state)) ] in
    if Qle_bool (lives (player state)) 0 then
      let state := set_mode state gameOver in
      ret (mkCollision state entity false
             (evs ++ [ EvGameOver (score (run state)) ]))
    else
      state <- resetPlayerAfterHit state ;;
      ret (mkCollision state entity false evs)
  else ret (mkCollision state entity false []).

Definition handlePlayerCollision (state : GameState) (entity : Entity)
  : Rand Collision :=
  let d := difficulty state in
  if negb (overlapsFishFootprint (player state) entity
             (playerHitboxScale d) (enemyHitboxScale d))
  then ret (mkCollision state entity false [])
  else
    let invulnerable :=
      Qlt_bool (timeSeconds (run state)) (invulnerableUntil (player state)) in
    match (if kind_eqb (kind entity) apex then combat entity else None) with
    | Some c =>
        if tailHitReady state entity c
        then ret (applyTailHit state entity c)
        else resolveContact state entity invulnerable
    | None => resolveContact state entity invulnerable
    end.

(** The [for (const entity of state.entities)] loop of [tickGame].  It
    walks the array that [state.entities] held when the loop began;
    [resetPlayerAfterHit] puts a new, filtered array in [state.entities]
    and leaves the walked one as it is.  [survivors] collects the
    entities that were not consumed.  The [entities] field of the
    threaded state stands for [state.entities] during the loop: the
    filter of [resetPlayerAfterHit], which looks at positions, is its
    only reader, and [tickGame] overwrites it with [survivors] when the
    loop ends. *)
Fixpoint collideAll (state : GameState) (todo survivors : list Entity)
  : Rand (GameState * list Entity) :=
  match todo with
  | [] => ret (state, survivors)
  | entity :: rest =>
      result <- handlePlayerCollision state entity ;;
      let state := push_events (c_state result) (events result) in
      collideAll state rest
        (if consumed result then survivors else survivors ++ [c_entity result])
  end.

(** ** engine: progression *)

(** The growth branch of the loop of [updateGrowthAndLives]. *)
Definition growOnce (state : GameState) : GameState :=
  let p := player state in
  let tier := sizeTier p + 1 in
  let p := mkPlayer (player_pos p) (player_vel p) (player_radius p)
             tier (lives p) (invulnerableUntil p) in
  let p := mkPlayer (player_pos p) (player_vel p)
             (playerRadiusForSizeTier (sizeTier p))
             (sizeTier p) (lives p) (invulnerableUntil p) in
  let state := set_player state p in
  let state := push_events state [ EvGrowth (sizeTier p) ] in
  let state := set_run state
                 (set_nextGrowthScore (run state)
                    (nextGrowthScore (run state) + 1000)) in
  if Qeq_bool (sizeTier p) MAX_SIZE_TIER
     && Qlt_bool (nextExtraLifeScore (run state)) (nextGrowthScore (run state))
  then set_run state
         (set_nextExtraLifeScore (run state) (nextGrowthScore (run state)))
  else state.

(** The extra-life branch of the loop. *)
Definition grantExtraLife (state : GameState) : GameState :=
  let p := player state in
  let p := mkPlayer (player_pos p) (player_vel p) (player_radius p)
             (sizeTier p) (lives p + 1) (invulnerableUntil p) in
  let state := set_player state p in
  let state := push_events state [ EvExtraLife (lives p) ] in
  set_run state
    (set_nextExtraLifeScore (run state)
       (nextExtraLifeScore (run state) + extraLifeScoreStep (difficulty state))).

(** The [while] loop of [updateGrowthAndLives]; [None] when the fuel
    does not cover the iterations of the loop. *)
Fixpoint growthLoop (fuel : nat) (state : GameState) : option GameState :=
  if negb (Qle_bool (nextGrowthScore (run state)) (score (run state)))
  then Some state
  else
    match fuel with
    | O => None
    | S fuel' =>
        if Qlt_bool (sizeTier (player state)) MAX_SIZE_TIER
        then growthLoop fuel' (growOnce state)
        else if Qle_bool (nextExtraLifeScore (run state)) (score (run state))
        then growthLoop fuel' (grantExtraLife state)
        else Some state
    end.

(** The milestone test that follows the loop. *)
Definition updateMilestone (state : GameState) : GameState :=
  let m := milestoneForScore (score (run state)) in
  if Qlt_bool (milestone (run state)) m then
    let state := set_run state (set_milestone (run state) m) in
    push_events state [ EvMilestone m ]
  else state.

Definition updateGrowthAndLives (fuel : nat) (state : GameState)
  : option GameState :=
  match growthLoop fuel state with
  | Some state => Some (updateMilestone state)
  | None => None
  end.

Definition updateApexThreatState (state : GameState) : GameState :=
  let apexEntities := filter (fun e => kind_eqb (kind e) apex) (entities state) in
  let t := apexThreat state in
  let t := mkThreat (ofNat (length apexEntities)) (intensity t)
             (threat_lastHitAt t) (threat_lastKillAt t) in
  if Nat.eqb (length apexEntities) 0 then
    set_apexThreat state
      (mkThreat (activeCount t) (Qmax 0 (intensity t - 0.02))
         (threat_lastHitAt t) (threat_lastKillAt t))
  else
    let aggregateDamage :=
      fold_left (fun sum e =>
                   match combat e with
                   | None => sum
                   | Some c => sum + (1 - health c / maxHealth c)
                   end) apexEntities 0 in
    let avgDamage := aggregateDamage / ofNat (length apexEntities) in
    set_apexThreat state
      (mkThreat (activeCount t) (Qmax (intensity t * 0.985) avgDamage)
         (threat_lastHitAt t) (threat_lastKillAt t)).

(** ** engine: the tick *)

(** The pause toggle at the top of [tickGame]. *)
Definition togglePause (state : GameState) (input : InputState) : GameState :=
  if pausePressed input && mode_eqb (mode state) playing then set_mode state paused
  else if pausePressed input && mode_eqb (mode state) paused then set_mode state playing
  else state.

(** The part of [tickGame] that runs in mode [playing], up to the
    collision loop and the assignment [state.entities = survivors]. *)
Definition simulate (state : GameState) (input : InputState) (dtMs : Q)
  : Rand GameState :=
  let dt := clamp (dtMs / 1000) 0 0.05 in
  let state := set_run state
                 (set_timeSeconds (run state) (timeSeconds (run state) + dt)) in
  state <- maybeSpawn state dt ;;
  let moveDir := normalize (movement input) in
  let desiredVel := scale moveDir (playerSpeed (difficulty state)) in
  let p := player state in
  let v := mkVec2 (lerp (x (player_vel p)) (x desiredVel)
                     (playerTurnLerp (difficulty state)))
                  (lerp (y (player_vel p)) (y desiredVel)
                     (playerTurnLerp (difficulty state))) in
  let q := add (player_pos p) (scale v dt) in
  let q := mkVec2 (clamp (x q) 0 (width (arena state)))
                  (clamp (y q) 0 (height (arena state))) in
  let state := set_player state
                 (mkPlayer q v (player_radius p) (sizeTier p) (lives p)
                    (invulnerableUntil p)) in
  moved <- forEachEntity (updateEntityAI state dt) (entities state) ;;
  let state := set_entities state moved in
  loop <- collideAll state (entities state) [] ;;
  ret (set_entities (fst loop) (snd loop)).

Definition tickGame (fuel : nat) (prev : GameState) (input : InputState)
    (dtMs : Q) : Rand (option GameState) :=
  let state := mkState (seed prev) (elapsedMs prev + dtMs) (mode prev)
                 (arena prev) (difficulty prev) (player prev) (entities prev)
                 (run prev) (nextEntityId prev) (spawnTimers prev)
                 (apexThreat prev) [] in
  let state := togglePause state input in
  if negb (mode_eqb (mode state) playing) then ret (Some state)
  else
    state <- simulate state input dtMs ;;
    ret (match updateGrowthAndLives fuel state with
         | Some state => Some (updateApexThreatState state)
         | None => None
         end).



(** The tests under which [handlePlayerCollision] reaches
    [resetPlayerAfterHit]: an overlap that is neither a ready tail hit
    nor a meal, on a vulnerable player who keeps a life. *)
Definition respawns (state : GameState) (entity : Entity) : bool :=
  let d := difficulty state in
  overlapsFishFootprint (player state) entity
    (playerHitboxScale d) (enemyHitboxScale d)
  && negb (match (if kind_eqb (kind entity) apex then combat entity else None) with
           | Some c => tailHitReady state entity c
           | None => false
           end)
  && negb (canEat (sizeTier (player state)) entity)
  && negb (Qlt_bool (timeSeconds (run state)) (invulnerableUntil (player state)))
  && negb (Qle_bool (lives (player state) - 1) 0).

(** ** Sample data for the closed examples

    The profiles of [./config] are not embedded: the examples run on a
    sample profile.  [hypot_approx] interprets [Math.hypot] by a
    square root rounded down at six decimals (exact on the squares used
    below), and [sin_zero] interprets [Math.sin] in examples that hold
    no hazard. *)

Definition sqrt_approx (q : Q) : Q :=
  inject_Z (Z.sqrt (Qnum q * Zpos (Qden q) * 10 ^ 12))
  / inject_Z (Zpos (Qden q) * 10 ^ 6).

Definition hypot_approx (a b : Q) : Q := sqrt_approx (a * a + b * b).

Definition sin_zero (v : Q) : Q := 0.

Definition sample_profile (k : DifficultyKey) : DifficultyProfile :=
  mkDifficulty k "sample" 1 3 220 0.2 0.9 0.9
    1.2 0.5 0.05 0.1
    1 6 1 3
    0.5 0.6 3 1 0.5 2 5000.

Definition sample_rng : Rng := mkRng (fun _ => 0.5) 0.

Definition sample_player : PlayerState :=
  mkPlayer (mkVec2 400 270) (mkVec2 0 0) 12 2 3 0.

Definition sample_run : RunProgress := mkRun 0 30 0 0 1000 6000 0.

Definition sample_state (m : GameModeState) (p : PlayerState)
    (l : list Entity) (r : RunProgress) : GameState :=
  mkState 7 0 m ARENA (sample_profile normal) p l r 100
    (mkTimers 0 0 0 0) (mkThreat 0 0 (-999) (-999)) [].

Definition idle : InputState := mkInput (mkVec2 0 0) false.
Definition toggle : InputState := mkInput (mkVec2 0 0) true.


(** An apex swimming left with one point of health, the player on its tail. *)
Definition sample_apex_tail : Entity :=
  mkEntity 1 apex (Some size5) (Some 1) (mkVec2 370 270) (mkVec2 (-100) 0) 30
    None (Some (mkCombat 1 1 0.6 (-1) (-999))).

(** A size-1 fish at rest, 50 units from the player. *)
Definition sample_prey : Entity :=
  mkEntity 1 prey (Some size1) (Some 1) (mkVec2 450 270) (mkVec2 0 0) 8
    None None.

(** A size-3 fish on a player placed at (600, 300), and another one
    resting next to the respawn point of the arena. *)
Definition sample_player_far : PlayerState :=
  mkPlayer (mkVec2 600 300) (mkVec2 0 0) 12 2 3 0.

Definition sample_biter : Entity :=
  mkEntity 1 predator (Some size3) (Some 1) (mkVec2 610 300) (mkVec2 0 0) 16
    None None.

Definition sample_lurker : Entity :=
  mkEntity 2 predator (Some size3) (Some 1) (mkVec2 180 270) (mkVec2 0 0) 16
    None None.

(** ** Notions used by the statements *)

(** The apex entities of a state, as [updateApexThreatState] filters them. *)
Definition activeApex (state : GameState) : list Entity :=
  filter (fun e => kind_eqb (kind e) apex) (entities state).

(** The damage fraction of an entity: [1 - health / maxHealth] of its
    combat record, 0 without one. *)
Definition damageFraction (e : Entity) : Q :=
  match combat e with
  | Some c => 1 - health c / maxHealth c
  | None => 0
  end.

Fixpoint Qsum (l : list Q) : Q :=
  match l with
  | [] => 0
  | v :: rest => v + Qsum rest
  end.

Definition isMilestone (e : GameEvent) : bool :=
  match e with
  | EvMilestone _ => true
  | _ => false
  end.







(** Two sources of draws agree when they stand at the same position and
    hold the same values from that position on. *)
Definition agree (g1 g2 : Rng) : Prop :=
  cursor g1 = cursor g2
  /\ forall n, (cursor g1 <= n)%nat -> draws g1 n = draws g2 n.

(** A computation whose result rests on the upcoming draws alone. *)
Definition respects {A : Type} (m : Rand A) : Prop :=
  forall g1 g2, agree g1 g2 ->
    fst (m g1) = fst (m g2) /\ agree (snd (m g1)) (snd (m g2)).


(** * Properties *)

(** ** Tactics *)

(** Splits the pairs bound by the monadic code of the goal. *)
Ltac split_binds :=
  repeat match goal with
         | |- context [let (_, _) := ?m in _] => destruct m
         end.

(** Case analysis on the tests of the goal. *)
Ltac break_tests :=
  repeat match goal with
         | |- context [if ?b then _ else _] => destruct b eqn:?
         | |- context [match ?o with Some _ => _ | None => _ end] =>
             destruct o eqn:?
         end.

(** ** Comparisons *)

Lemma Qlt_bool_iff (a b : Q) : Qlt_bool a b = true <-> a < b.
Proof.
  unfold Qlt_bool. rewrite negb_true_iff. split; intro H.
  - apply Qnot_le_lt. intro L. apply Qle_bool_iff in L. congruence.
  - destruct (Qle_bool b a) eqn:E; [|reflexivity].
    apply Qle_bool_iff in E. exfalso. apply (Qlt_not_le _ _ H E).
Qed.




Lemma kind_eqb_eq (a b : EntityKind) : kind_eqb a b = true <-> a = b.
Proof. destruct a, b; simpl; split; congruence. Qed.

(** ** The tick outside of play *)

(** What the tick does when, after the pause toggle, the mode is not
    [playing]: it returns the copy of the state and draws nothing. *)
Lemma tickGame_frozen (fuel : nat) (prev : GameState) (input : InputState)
    (dtMs : Q) (g : Rng) :
  mode (togglePause prev input) <> playing ->
  tickGame fuel prev input dtMs g =
  (Some (mkState (seed prev) (elapsedMs prev + dtMs) (mode (togglePause prev input))
           (arena prev) (difficulty prev) (player prev) (entities prev)
           (run prev) (nextEntityId prev) (spawnTimers prev)
           (apexThreat prev) []), g).
Proof.
  intro H. unfold tickGame, togglePause, set_mode in *. simpl in *.
  destruct (pausePressed input), (mode prev) eqn:M; simpl in *;
    try rewrite M; try reflexivity; congruence.
Qed.

(** A paused state that receives the pause toggle is ticked exactly as
    the same state in mode [playing]: the simulation runs in that tick. *)
Lemma tick_resume (fuel : nat) (prev : GameState) (input : InputState)
    (dtMs : Q) (g : Rng) :
  mode prev = paused -> pausePressed input = true ->
  tickGame fuel prev input dtMs g
  = tickGame fuel (set_mode prev playing) (mkInput (movement input) false) dtMs g.
Proof.
  intros H P. unfold tickGame, togglePause, set_mode. rewrite H, P. simpl.
  reflexivity.
Qed.

(** C5 (amended): a tick on a state in mode [title] or [gameOver], or in
    mode [paused] without a pause toggle in the input, returns a state
    with the same mode, player, entities, run, spawn timers and apex
    threat, and draws no random number.  (A paused state that receives
    the toggle is the case of [tick_resume].) *)
Theorem tick_outside_play (fuel : nat) (prev : GameState) (input : InputState)
    (dtMs : Q) (g : Rng) :
  mode prev = title \/ mode prev = gameOver
  \/ (mode prev = paused /\ pausePressed input = false) ->
  exists s',
    tickGame fuel prev input dtMs g = (Some s', g)
    /\ mode s' = mode prev /\ player s' = player prev
    /\ entities s' = entities prev /\ run s' = run prev
    /\ spawnTimers s' = spawnTimers prev /\ apexThreat s' = apexThreat prev.
Proof.
  intros H.
  assert (F : mode (togglePause prev input) = mode prev).
  { unfold togglePause, set_mode.
    destruct H as [H | [H | [H P]]]; rewrite H; try rewrite P;
      destruct (pausePressed input); simpl; congruence. }
  eexists. split.
  - apply tickGame_frozen. rewrite F.
    destruct H as [H | [H | [H P]]]; congruence.
  - simpl. rewrite F. repeat split; reflexivity.
Qed.

(** ** Contact with an apex outside of a tail hit *)



(** ** The killing tail hit *)

Lemma apexTailDamage_ge_1 (tier : Q) : 1 <= apexTailDamageForPlayer tier.
Proof.
  unfold apexTailDamageForPlayer.
  destruct (Qle_bool 5 tier); [|destruct (Qle_bool 3 tier)]; lra.
Qed.

(** C6 (amended): an apex with health 1, overlapped in tail-hit position
    with the cooldown ready, is consumed.  The events of the contact are,
    in this order, apex-hit (health 0), score (the hit's points),
    apex-intensity, score (the kill bonus) and apex-killed: the kill
    follows the hit in the same list, three events later.  The kill
    bonus is twice the hit's points, the threat intensity is set to 0,
    and the collision loop leaves the apex out of the survivors. *)
Theorem apex_kill_on_last_health (state : GameState) (entity : Entity)
    (c : Combat) (g : Rng) :
  overlapsFishFootprint (player state) entity
    (playerHitboxScale (difficulty state)) (enemyHitboxScale (difficulty state)) = true ->
  kind entity = apex ->
  combat entity = Some c ->
  health c == 1 ->
  tailHitReady state entity c = true ->
  let points := pointsForApexTailHit (scoreMultiplier (difficulty state)) in
  let damage := apexTailDamageForPlayer (sizeTier (player state)) in
  exists r hp iv,
    handlePlayerCollision state entity g = (r, g)
    /\ consumed r = true
    /\ events r = [ EvApexHit (id entity) damage hp (maxHealth c) points (pos entity);
                    EvScore points;
                    EvApexIntensity iv;
                    EvScore (points * 2);
                    EvApexKilled (id entity) (points * 2) (pos entity) ]
    /\ hp == 0
    /\ intensity (apexThreat (c_state r)) = 0
    /\ score (run (c_state r)) = score (run state) + points + points * 2
    /\ forall rest survivors,
         collideAll state (entity :: rest) survivors g
         = collideAll (push_events (c_state r) (events r)) rest survivors g.
Proof.
  intros Hov Hk Hc Hh Ht points damage.
  assert (Hd : Qle_bool (health c - damage) 0 = true).
  { apply Qle_bool_iff. pose proof (apexTailDamage_ge_1 (sizeTier (player state))).
    subst damage. lra. }
  assert (E : handlePlayerCollision state entity g = (applyTailHit state entity c, g)).
  { unfold handlePlayerCollision. rewrite Hov, Hk. cbn [negb kind_eqb].
    rewrite Hc, Ht. reflexivity. }
  assert (K : consumed (applyTailHit state entity c) = true).
  { unfold applyTailHit. cbn [health]. fold damage. rewrite Hd. reflexivity. }
  exists (applyTailHit state entity c).
  exists (Qmax (health c - damage) 0).
  eexists.
  split; [exact E|]. split; [exact K|].
  split; [unfold applyTailHit; cbn [health]; fold damage; rewrite Hd; reflexivity|].
  split.
  { apply Q.max_r. apply Qle_bool_iff. exact Hd. }
  split; [unfold applyTailHit; cbn [health]; fold damage; rewrite Hd; reflexivity|].
  split; [unfold applyTailHit; cbn [health]; fold damage; rewrite Hd; reflexivity|].
  intros rest survivors. cbn [collideAll]. unfold bind at 1. rewrite E, K.
  reflexivity.
Qed.

(** ** The apex threat *)

Lemma aggregateDamage_sum (l : list Entity) (a : Q) :
  fold_left (fun sum e =>
               match combat e with
               | None => sum
               | Some c => sum + (1 - health c / maxHealth c)
               end) l a
  == a + Qsum (map damageFraction l).
Proof.
  revert a. induction l as [|e l IH]; intro a; simpl.
  - lra.
  - rewrite IH. unfold damageFraction. destruct (combat e); lra.
Qed.

(** C4 (amended): [updateApexThreatState] sets the active count to the
    number of apex entities.  With no apex the intensity goes down by
    0.02, not below 0 (a linear decay - no factor is applied); with at
    least one apex it becomes the maximum of 0.985 times the prior
    intensity and the average damage fraction of the apex entities. *)
Theorem threat_intensity_update (state : GameState) :
  let prior := intensity (apexThreat state) in
  let next := apexThreat (updateApexThreatState state) in
  activeCount next = ofNat (length (activeApex state))
  /\ (activeApex state = [] -> intensity next = Qmax 0 (prior - 0.02))
  /\ (activeApex state <> [] ->
      intensity next
      == Qmax (prior * 0.985)
           (Qsum (map damageFraction (activeApex state))
            / ofNat (length (activeApex state)))).
Proof.
  unfold updateApexThreatState. fold (activeApex state).
  destruct (activeApex state) as [|e l] eqn:A; simpl.
  - repeat split; try reflexivity. intro H. congruence.
  - repeat split; try reflexivity; try congruence. intros _.
    apply Q.max_compat; [reflexivity|].
    apply Qdiv_comp; [|reflexivity].
    rewrite aggregateDamage_sum. unfold damageFraction.
    destruct (combat e); lra.
Qed.

(** The tick in mode [playing] ends with [updateApexThreatState]. *)
Lemma tickGame_playing (fuel : nat) (prev : GameState) (input : InputState)
    (dtMs : Q) (g : Rng) :
  let state0 := togglePause
                  (mkState (seed prev) (elapsedMs prev + dtMs) (mode prev)
                     (arena prev) (difficulty prev) (player prev) (entities prev)
                     (run prev) (nextEntityId prev) (spawnTimers prev)
                     (apexThreat prev) []) input in
  mode state0 = playing ->
  tickGame fuel prev input dtMs g
  = (match updateGrowthAndLives fuel (fst (simulate state0 input dtMs g)) with
     | Some state => Some (updateApexThreatState state)
     | None => None
     end, snd (simulate state0 input dtMs g)).
Proof.
  intros state0 M. unfold tickGame. fold state0. rewrite M. simpl.
  unfold bind, ret. destruct (simulate state0 input dtMs g). reflexivity.
Qed.

(** ** Spawning *)

Lemma spawnAtEdge_kind_id (state : GameState) (k : EntityKind) (g : Rng) :
  kind (fst (spawnAtEdge state k g)) = k
  /\ id (fst (spawnAtEdge state k g)) = nextEntityId state.
Proof.
  unfold spawnAtEdge, bind, ret. split_binds.
  destruct (kind_eqb k apex); split_binds; simpl; auto.
Qed.

Lemma getTimer_setTimer (t : SpawnTimers) (k k' : EntityKind) (v : Q) :
  getTimer (setTimer t k v) k' = if kind_eqb k k' then v else getTimer t k'.
Proof. destruct k, k'; reflexivity. Qed.

(** C8 (amended): for one kind in one tick.  A locked kind is left
    alone.  An unlocked kind adds the elapsed time to its timer whatever
    its population and its rate; only when the rate is positive, the
    timer has reached [1 / rate] and the population is under the cap
    does the timer go back to 0 and one entity of that kind, carrying
    the next entity id, join the entities.  The other timers stay. *)
Theorem spawn_timer_step (dt : Q) (state : GameState) (k : EntityKind) (g : Rng) :
  let t := getTimer (spawnTimers state) k in
  let rate := spawnRateForKind state k in
  let due := Qlt_bool 0 rate && Qle_bool (1 / rate) (t + dt)
             && Qlt_bool (countByKind state k) (spawnCapForKind state k) in
  let s' := fst (maybeSpawnKind dt state k g) in
  (forall k', k' <> k ->
     getTimer (spawnTimers s') k' = getTimer (spawnTimers state) k')
  /\ (isKindUnlocked state k = false -> maybeSpawnKind dt state k g = (state, g))
  /\ (isKindUnlocked state k = true -> due = false ->
      snd (maybeSpawnKind dt state k g) = g
      /\ getTimer (spawnTimers s') k = t + dt
      /\ entities s' = entities state
      /\ nextEntityId s' = nextEntityId state)
  /\ (isKindUnlocked state k = true -> due = true ->
      getTimer (spawnTimers s') k = 0
      /\ nextEntityId s' = nextEntityId state + 1
      /\ exists e,
           entities s' = entities state ++ [e]
           /\ kind e = k /\ id e = nextEntityId state).
Proof.
  intros t rate due s'.
  assert (NE : forall a b, a <> b -> kind_eqb b a = false).
  { intros a b H. destruct (kind_eqb b a) eqn:E; [|reflexivity].
    apply kind_eqb_eq in E. congruence. }
  subst s'. unfold maybeSpawnKind, spawnRates.
  destruct (isKindUnlocked state k) eqn:U; cbn [negb];
    [|split; [reflexivity|]; split; [reflexivity|]; split; intros; discriminate].
  change (spawnRateForKind (set_spawnTimers state _) k) with rate.
  change (countByKind (set_spawnTimers state _) k) with (countByKind state k).
  change (spawnCapForKind (set_spawnTimers state _) k) with (spawnCapForKind state k).
  cbn [spawnTimers set_spawnTimers].
  rewrite getTimer_setTimer. replace (kind_eqb k k) with true by (destruct k; reflexivity).
  fold t. subst due.
  assert (P : Qlt_bool 0 rate = negb (Qle_bool rate 0)) by reflexivity.
  rewrite P. clear P.
  destruct (Qle_bool rate 0) eqn:R; cbn [negb andb].
  { cbn [fst snd ret spawnTimers set_spawnTimers entities nextEntityId].
    split. { intros k' H. rewrite getTimer_setTimer, (NE _ _ H). reflexivity. }
    split; [intros; discriminate|]. split; [|intros; discriminate].
    intros _ _. rewrite getTimer_setTimer.
    replace (kind_eqb k k) with true by (destruct k; reflexivity). auto. }
  destruct (Qle_bool (1 / rate) (t + dt)
            && Qlt_bool (countByKind state k) (spawnCapForKind state k)) eqn:D.
  - unfold bind, ret.
    match goal with
    | |- context [spawnAtEdge ?s k g] =>
        pose proof (spawnAtEdge_kind_id s k g) as [Hk Hi];
        destruct (spawnAtEdge s k g) as [e g']
    end.
    cbn [fst snd spawnTimers set_spawnTimers set_entities set_nextEntityId
           entities nextEntityId] in *.
    split. { intros k' H. rewrite !getTimer_setTimer, (NE _ _ H). reflexivity. }
    split; [intros; discriminate|]. split; [intros; discriminate|].
    intros _ _. rewrite getTimer_setTimer.
    replace (kind_eqb k k) with true by (destruct k; reflexivity).
    split; [reflexivity|]. split; [reflexivity|].
    exists e. auto.
  - cbn [fst snd ret spawnTimers set_spawnTimers entities nextEntityId].
    split. { intros k' H. rewrite getTimer_setTimer, (NE _ _ H). reflexivity. }
    split; [intros; discriminate|]. split; [|intros; discriminate].
    intros _ _. rewrite getTimer_setTimer.
    replace (kind_eqb k k) with true by (destruct k; reflexivity). auto.
Qed.

(** ** The growth loop *)

Lemma ofNat_S (n : nat) : ofNat (S n) == ofNat n + 1.
Proof.
  unfold ofNat. rewrite Nat2Z.inj_succ, <- Z.add_1_r, inject_Z_plus. reflexivity.
Qed.


(** Every rational lies below a natural multiple of a positive step. *)
Lemma below_multiple (step q : Q) :
  0 < step -> exists n : nat, q < step * ofNat n.
Proof.
  intro Hs. destruct (Qarchimedean (q / step)) as [p Hp].
  exists (Pos.to_nat p). unfold ofNat. rewrite positive_nat_Z.
  assert (E : q == q / step * step) by (field; lra).
  rewrite E, (Qmult_comm step). apply Qmult_lt_r; [exact Hs|exact Hp].
Qed.

(** The loop returns once the fuel covers the growth thresholds and the
    extra-life thresholds that the score has passed. *)
Lemma growthLoop_enough (fuel : nat) :
  forall (n m : nat) (state : GameState),
    0 < extraLifeScoreStep (difficulty state) ->
    score (run state) - nextGrowthScore (run state) < 1000 * ofNat n ->
    score (run state) - nextExtraLifeScore (run state)
      < extraLifeScoreStep (difficulty state) * ofNat m ->
    (n + m <= fuel)%nat ->
    exists s', growthLoop fuel state = Some s'.
Proof.
  induction fuel as [|fuel IH]; intros n m state Hs Hn Hm Hf.
  - assert (n = 0%nat) by lia. assert (m = 0%nat) by lia. subst.
    simpl. destruct (Qle_bool (nextGrowthScore (run state)) (score (run state))) eqn:E.
    + apply Qle_bool_iff in E. change (ofNat 0) with 0 in Hn. lra.
    + simpl. eauto.
  - cbn [growthLoop].
    destruct (Qle_bool (nextGrowthScore (run state)) (score (run state))) eqn:E;
      cbn [negb]; [|eauto].
    apply Qle_bool_iff in E.
    destruct (Qlt_bool (sizeTier (player state)) MAX_SIZE_TIER) eqn:T.
    + destruct n as [|n].
      { change (ofNat 0) with 0 in Hn. lra. }
      rewrite ofNat_S in Hn.
      apply (IH n m (growOnce state)); [| | |lia]; unfold growOnce.
      * destruct (Qeq_bool _ _ && Qlt_bool _ _); exact Hs.
      * destruct (Qeq_bool _ _ && Qlt_bool _ _); simpl; lra.
      * destruct (Qeq_bool _ _ && Qlt_bool _ _) eqn:B; simpl.
        -- apply andb_true_iff in B. destruct B as [_ B].
           apply Qlt_bool_iff in B. simpl in B. lra.
        -- exact Hm.
    + destruct (Qle_bool (nextExtraLifeScore (run state)) (score (run state))) eqn:X;
        [|eauto].
      apply Qle_bool_iff in X.
      destruct m as [|m].
      { change (ofNat 0) with 0 in Hm. lra. }
      rewrite ofNat_S in Hm.
      apply (IH n m (grantExtraLife state)); [| | |lia]; unfold grantExtraLife.
      * exact Hs.
      * exact Hn.
      * simpl. lra.
Qed.

Lemma growthLoop_total (state : GameState) :
  0 < extraLifeScoreStep (difficulty state) ->
  exists fuel, forall fuel', (fuel <= fuel')%nat ->
    exists s', growthLoop fuel' state = Some s'.
Proof.
  intro Hs.
  destruct (below_multiple 1000 (score (run state) - nextGrowthScore (run state)))
    as [n Hn]; [lra|].
  destruct (below_multiple (extraLifeScoreStep (difficulty state))
              (score (run state) - nextExtraLifeScore (run state)) Hs) as [m Hm].
  exists (n + m)%nat. intros fuel' Hf.
  apply (growthLoop_enough fuel' n m state Hs Hn Hm Hf).
Qed.

(** More fuel does not change a result. *)
Lemma growthLoop_more (fuel : nat) :
  forall (state s' : GameState),
    growthLoop fuel state = Some s' -> growthLoop (S fuel) state = Some s'.
Proof.
  induction fuel as [|fuel IH]; intros state s' H.
  - simpl in *.
    destruct (Qle_bool (nextGrowthScore (run state)) (score (run state)));
      simpl in *; congruence.
  - cbn [growthLoop] in *.
    destruct (Qle_bool (nextGrowthScore (run state)) (score (run state)));
      cbn [negb] in *; [|exact H].
    destruct (Qlt_bool (sizeTier (player state)) MAX_SIZE_TIER).
    + apply IH. exact H.
    + destruct (Qle_bool (nextExtraLifeScore (run state)) (score (run state)));
        [apply IH; exact H | exact H].
Qed.

(** What the loop leaves alone, and what it appends: growth and
    extra-life events only. *)
Lemma growthLoop_frame (fuel : nat) :
  forall (state s' : GameState),
    growthLoop fuel state = Some s' ->
    score (run s') = score (run state)
    /\ milestone (run s') = milestone (run state)
    /\ entities s' = entities state
    /\ apexThreat s' = apexThreat state
    /\ difficulty s' = difficulty state
    /\ mode s' = mode state
    /\ exists evs,
         pendingEvents s' = pendingEvents state ++ evs
         /\ forallb (fun e => negb (isMilestone e)) evs = true.
Proof.
  assert (Base : forall state : GameState,
             score (run state) = score (run state)
             /\ milestone (run state) = milestone (run state)
             /\ entities state = entities state
             /\ apexThreat state = apexThreat state
             /\ difficulty state = difficulty state
             /\ mode state = mode state
             /\ exists evs,
                  pendingEvents state = pendingEvents state ++ evs
                  /\ forallb (fun e => negb (isMilestone e)) evs = true).
  { intro state. repeat split. exists []. rewrite app_nil_r. auto. }
  induction fuel as [|fuel IH]; intros state s' H.
  - simpl in H.
    destruct (Qle_bool (nextGrowthScore (run state)) (score (run state)));
      simpl in H; [discriminate|]. injection H as <-. apply Base.
  - cbn [growthLoop] in H.
    destruct (Qle_bool (nextGrowthScore (run state)) (score (run state)));
      cbn [negb] in H; [|injection H as <-; apply Base].
    destruct (Qlt_bool (sizeTier (player state)) MAX_SIZE_TIER).
    + apply IH in H.
      destruct H as (H1 & H2 & H3 & H4 & H5 & H6 & evs & H7 & H8).
      unfold growOnce in *.
      destruct (Qeq_bool _ _ && Qlt_bool _ _); simpl in *;
        (repeat (split; [assumption|]));
        eexists; rewrite H7, <- app_assoc; (split; [reflexivity|]);
        simpl; exact H8.
    + destruct (Qle_bool (nextExtraLifeScore (run state)) (score (run state)));
        [|injection H as <-; apply Base].
      apply IH in H.
      destruct H as (H1 & H2 & H3 & H4 & H5 & H6 & evs & H7 & H8).
      unfold grantExtraLife in *.
      simpl in *. repeat (split; [assumption|]).
      eexists. rewrite H7, <- app_assoc. split; [reflexivity|].
      simpl. exact H8.
Qed.

Lemma growOnce_fields (state : GameState) :
  let tier := sizeTier (player state) + 1 in
  sizeTier (player (growOnce state)) = tier
  /\ player_radius (player (growOnce state)) = playerRadiusForSizeTier tier
  /\ pendingEvents (growOnce state) = pendingEvents state ++ [ EvGrowth tier ]
  /\ nextGrowthScore (run (growOnce state)) = nextGrowthScore (run state) + 1000
  /\ score (run (growOnce state)) = score (run state)
  /\ difficulty (growOnce state) = difficulty state.
Proof.
  unfold growOnce.
  destruct (Qeq_bool _ _ && Qlt_bool _ _); simpl; repeat split; reflexivity.
Qed.

Lemma growthLoop_grow (fuel : nat) (state : GameState) :
  nextGrowthScore (run state) <= score (run state) ->
  sizeTier (player state) < MAX_SIZE_TIER ->
  growthLoop (S fuel) state = growthLoop fuel (growOnce state).
Proof.
  intros Hg Ht. apply Qle_bool_iff in Hg. apply Qlt_bool_iff in Ht.
  cbn [growthLoop]. rewrite Hg, Ht. reflexivity.
Qed.

(** C7: while the score has reached the next growth threshold and the
    size tier is below 5, an iteration of the loop raises the tier by
    one, takes the radius from the tier lookup, emits a growth event and
    moves the threshold up by 1000.  When the score has passed the
    following threshold as well (and the tier after the first growth is
    still below 5), the events of the tick continue with two growth
    events, in order, for two consecutive tiers. *)
Theorem growth_on_threshold (state : GameState) :
  nextGrowthScore (run state) <= score (run state) ->
  sizeTier (player state) < MAX_SIZE_TIER ->
  let tier := sizeTier (player state) + 1 in
  (forall fuel, exists state1,
      growthLoop (S fuel) state = growthLoop fuel state1
      /\ sizeTier (player state1) = tier
      /\ player_radius (player state1) = playerRadiusForSizeTier tier
      /\ pendingEvents state1 = pendingEvents state ++ [ EvGrowth tier ]
      /\ nextGrowthScore (run state1) = nextGrowthScore (run state) + 1000
      /\ score (run state1) = score (run state))
  /\ (nextGrowthScore (run state) + 1000 <= score (run state) ->
      tier < MAX_SIZE_TIER ->
      0 < extraLifeScoreStep (difficulty state) ->
      exists fuel s' rest,
        updateGrowthAndLives fuel state = Some s'
        /\ pendingEvents s'
           = pendingEvents state ++ EvGrowth tier :: EvGrowth (tier + 1) :: rest).
Proof.
  intros Hg Ht tier.
  destruct (growOnce_fields state) as (T1 & R1 & E1 & G1 & S1 & D1).
  fold tier in T1, R1, E1.
  split.
  - intro fuel. exists (growOnce state).
    split; [apply growthLoop_grow; assumption|]. auto.
  - intros Hg2 Ht2 Hs.
    set (s1 := growOnce state) in *.
    destruct (growOnce_fields s1) as (T2 & _ & E2 & _ & _ & D2).
    set (s2 := growOnce s1) in *.
    destruct (growthLoop_total s2) as (f & Hf).
    { rewrite D2, D1. exact Hs. }
    destruct (Hf f (Nat.le_refl f)) as (s3 & H3).
    destruct (growthLoop_frame f s2 s3 H3) as (_ & _ & _ & _ & _ & _ & evs & E3 & _).
    assert (L : growthLoop (S (S f)) state = Some s3).
    { rewrite growthLoop_grow by assumption. fold s1.
      rewrite growthLoop_grow; [exact H3| |].
      - rewrite G1, S1. exact Hg2.
      - rewrite T1. exact Ht2. }
    exists (S (S f)). unfold updateGrowthAndLives. rewrite L.
    unfold updateMilestone.
    destruct (Qlt_bool _ _); eexists; eexists; (split; [reflexivity|]);
      simpl; rewrite E3, E2, E1, T1;
      rewrite <- !app_assoc; simpl; reflexivity.
Qed.

(** ** Events of a tick *)







(** ** The invariant of a run *)


















Lemma handlePlayerCollision_difficulty (state : GameState) (entity : Entity)
    (g : Rng) :
  difficulty (c_state (fst (handlePlayerCollision state entity g)))
  = difficulty state.
Proof.
  unfold handlePlayerCollision, resolveContact, applyTailHit,
    resetPlayerAfterHit, bind, rnd, Math_random, ret.
  break_tests; reflexivity.
Qed.

Lemma collideAll_difficulty (todo : list Entity) :
  forall (state : GameState) (survivors : list Entity) (g : Rng),
    difficulty (fst (fst (collideAll state todo survivors g))) = difficulty state.
Proof.
  induction todo as [|e todo IH]; intros state survivors g; [reflexivity|].
  cbn [collideAll]. unfold bind.
  pose proof (handlePlayerCollision_difficulty state e g) as D.
  destruct (handlePlayerCollision state e g) as [r g']. cbn [fst] in D.
  rewrite IH. exact D.
Qed.

Lemma maybeSpawnKind_difficulty (dt : Q) (state : GameState) (k : EntityKind)
    (g : Rng) :
  difficulty (fst (maybeSpawnKind dt state k g)) = difficulty state.
Proof.
  unfold maybeSpawnKind, bind, ret. break_tests; try reflexivity.
  split_binds. reflexivity.
Qed.

Lemma forEachKind_difficulty (dt : Q) (ks : list EntityKind) :
  forall (state : GameState) (g : Rng),
    difficulty (fst (forEachKind (maybeSpawnKind dt) state ks g))
    = difficulty state.
Proof.
  induction ks as [|k ks IH]; intros state g; [reflexivity|].
  cbn [forEachKind]. unfold bind.
  pose proof (maybeSpawnKind_difficulty dt state k g) as E.
  destruct (maybeSpawnKind dt state k g) as [s1 g1]. cbn [fst] in E.
  rewrite IH. exact E.
Qed.

Lemma simulate_difficulty (state : GameState) (input : InputState) (dtMs : Q)
    (g : Rng) :
  difficulty (fst (simulate state input dtMs g)) = difficulty state.
Proof.
  unfold simulate, maybeSpawn, bind.
  match goal with
  | |- context [forEachKind ?f ?s ?ks g] =>
      pose proof (forEachKind_difficulty (clamp (dtMs / 1000) 0 0.05) ks s g) as E;
      destruct (forEachKind f s ks g) as [s1 g1]
  end.
  cbn [fst difficulty set_run] in E.
  match goal with
  | |- context [forEachEntity ?f ?l g1] => destruct (forEachEntity f l g1) as [moved g2]
  end.
  cbn [entities set_entities].
  match goal with
  | |- context [collideAll ?s ?l [] g2] =>
      pose proof (collideAll_difficulty l s [] g2) as C;
      destruct (collideAll s l [] g2) as [[s3 surv] g3]
  end.
  cbn [fst snd ret difficulty set_entities set_player] in *.
  rewrite C. exact E.
Qed.

(** A tick returns once the fuel covers the loop of
    [updateGrowthAndLives], whenever the extra-life step is positive. *)
Lemma tickGame_total (prev : GameState) (input : InputState) (dtMs : Q) (g : Rng) :
  0 < extraLifeScoreStep (difficulty prev) ->
  exists fuel, forall fuel', (fuel <= fuel')%nat ->
    exists s', fst (tickGame fuel' prev input dtMs g) = Some s'.
Proof.
  intro Hs. unfold tickGame.
  match goal with
  | |- context [togglePause ?s input] => set (s0 := togglePause s input) in *
  end.
  assert (D0 : difficulty s0 = difficulty prev).
  { subst s0. unfold togglePause. break_tests; reflexivity. }
  destruct (negb (mode_eqb (mode s0) playing)).
  - exists 0%nat. intros fuel' _. cbn. eauto.
  - unfold bind, ret.
    assert (D1 : difficulty (fst (simulate s0 input dtMs g)) = difficulty prev).
    { rewrite <- D0. apply simulate_difficulty. }
    destruct (simulate s0 input dtMs g) as [s1 g1]. cbn [fst] in *.
    destruct (growthLoop_total s1) as (f & Hf); [rewrite D1; exact Hs|].
    exists f. intros fuel' Hle. destruct (Hf fuel' Hle) as (s2 & L).
    unfold updateGrowthAndLives. rewrite L. eauto.
Qed.




(** ** Milestones *)










(** ** The respawn after a hostile hit *)

(** What [handlePlayerCollision] does when it reaches
    [resetPlayerAfterHit]: the entity is not consumed, one life is
    taken, the player stands at the respawn point with no velocity and
    the grace period ahead, and [state.entities] holds the entities
    farther than 120 from that point. *)
Lemma respawn_after_hit (state : GameState) (e : Entity) (g : Rng) :
  respawns state e = true ->
  let r := fst (handlePlayerCollision state e g) in
  let p := player (c_state r) in
  consumed r = false
  /\ c_entity r = e
  /\ events r = [ EvPlayerHit (lives (player state) - 1) ]
  /\ lives p = lives (player state) - 1
  /\ x (player_pos p) = width (arena state) * 0.18
  /\ y (player_pos p)
     = 100 + draws g (cursor g) * (height (arena state) - 100 - 100)
  /\ player_vel p = mkVec2 0 0
  /\ invulnerableUntil p
     = timeSeconds (run state) + graceSecondsAfterRespawn (difficulty state)
  /\ entities (c_state r)
     = filter (fun a => Qlt_bool 120 (dist (pos a) (player_pos p))) (entities state).
Proof.
  unfold respawns, handlePlayerCollision, resolveContact. intro R.
  repeat (apply andb_true_iff in R; let H := fresh "H" in destruct R as [R H]).
  rewrite R. cbn [negb].
  apply negb_true_iff in H, H0, H1, H2.
  rewrite H1, H0. cbn [negb lives player set_player]. rewrite H.
  unfold resetPlayerAfterHit, rnd, Math_random, bind, ret.
  destruct (if kind_eqb (kind e) apex then combat e else None);
    [rewrite H2|]; cbn; repeat split; reflexivity.
Qed.

Lemma collideAll_keeps (todo : list Entity) :
  forall (state : GameState) (survivors : list Entity) (g : Rng) (e : Entity),
    In e survivors -> In e (snd (fst (collideAll state todo survivors g))).
Proof.
  induction todo as [|a todo IH]; intros state survivors g e I; [exact I|].
  cbn [collideAll]. unfold bind.
  destruct (handlePlayerCollision state a g) as [r g'].
  apply IH. destruct (consumed r); [exact I|].
  apply in_or_app. left. exact I.
Qed.

(** The loop of [tickGame] returns the entity whose contact made the
    player respawn, whatever [resetPlayerAfterHit] has filtered. *)
Lemma biter_is_returned (state : GameState) (e : Entity) (rest survivors : list Entity)
    (g : Rng) :
  respawns state e = true ->
  In e (snd (fst (collideAll state (e :: rest) survivors g))).
Proof.
  intro R. destruct (respawn_after_hit state e g R) as (C & E & _).
  cbn [collideAll]. unfold bind.
  destruct (handlePlayerCollision state e g) as [r g']. cbn [fst] in C, E.
  apply collideAll_keeps. rewrite C, E. apply in_or_app. right. left. reflexivity.
Qed.

(** ** Random draws *)

Lemma respects_ret {A : Type} (a : A) : respects (ret a).
Proof. intros g1 g2 H. split; [reflexivity|exact H]. Qed.

Lemma respects_bind {A B : Type} (m : Rand A) (k : A -> Rand B) :
  respects m -> (forall a, respects (k a)) -> respects (bind m k).
Proof.
  intros Hm Hk g1 g2 H. unfold bind.
  destruct (Hm g1 g2 H) as [E G].
  destruct (m g1) as [a1 h1], (m g2) as [a2 h2]. cbn [fst snd] in E, G.
  subst a2. apply Hk. exact G.
Qed.

Lemma respects_random : respects Math_random.
Proof.
  intros g1 g2 [C D]. unfold Math_random. cbn [fst snd]. split.
  - rewrite <- C. apply D. lia.
  - split; cbn [cursor draws]; [congruence|].
    intros n Hn. apply D. lia.
Qed.

(** Builds a proof of [respects] along the binds and tests of a term;
    the hint base [draws] holds the lemmas of the functions called. *)
Ltac respects_tac :=
  repeat first
    [ solve [auto with draws]
    | apply respects_ret
    | apply respects_random
    | apply respects_bind; [|intro]
    | progress cbv zeta
    | match goal with
      | |- respects (if ?b then _ else _) => destruct b
      | |- respects (match ?v with _ => _ end) => destruct v
      end ].

Create HintDb draws.

Lemma respects_rnd (lo hi : Q) : respects (rnd lo hi).
Proof. unfold rnd. respects_tac. Qed.
#[local] Hint Resolve respects_rnd : draws.

Lemma respects_entitySpeed (k : EntityKind) (a : Q) : respects (entitySpeed k a).
Proof. unfold entitySpeed. respects_tac. Qed.

Lemma respects_npcCruiseSpeed (c : FishSizeClass) : respects (npcCruiseSpeed c).
Proof. unfold npcCruiseSpeed. respects_tac. Qed.

Lemma respects_entityRadius (k : EntityKind) (c : option FishSizeClass) :
  respects (entityRadius k c).
Proof. unfold entityRadius, npcRadiusForSizeClass. respects_tac. Qed.

Lemma respects_pickNpcSizeForSpawn (state : GameState) (k : EntityKind) :
  respects (pickNpcSizeForSpawn state k).
Proof. unfold pickNpcSizeForSpawn. respects_tac. Qed.
#[local] Hint Resolve respects_entitySpeed respects_npcCruiseSpeed
  respects_entityRadius respects_pickNpcSizeForSpawn : draws.

Lemma respects_spawnAtEdge (state : GameState) (k : EntityKind) :
  respects (spawnAtEdge state k).
Proof. unfold spawnAtEdge. respects_tac. Qed.
#[local] Hint Resolve respects_spawnAtEdge : draws.

Lemma respects_maybeSpawnKind (dt : Q) (state : GameState) (k : EntityKind) :
  respects (maybeSpawnKind dt state k).
Proof. unfold maybeSpawnKind. respects_tac. Qed.
#[local] Hint Resolve respects_maybeSpawnKind : draws.

Lemma respects_forEachKind (dt : Q) (ks : list EntityKind) :
  forall state, respects (forEachKind (maybeSpawnKind dt) state ks).
Proof.
  induction ks as [|k ks IH]; intro state; cbn [forEachKind]; respects_tac.
Qed.

Lemma respects_updateEntityAI (state : GameState) (dt : Q) (e : Entity) :
  respects (updateEntityAI state dt e).
Proof. unfold updateEntityAI, steerFish. respects_tac. Qed.
#[local] Hint Resolve respects_forEachKind respects_updateEntityAI : draws.

Lemma respects_forEachEntity (state : GameState) (dt : Q) (l : list Entity) :
  respects (forEachEntity (updateEntityAI state dt) l).
Proof.
  induction l as [|e l IH]; cbn [forEachEntity]; respects_tac.
Qed.

Lemma respects_handlePlayerCollision (state : GameState) (e : Entity) :
  respects (handlePlayerCollision state e).
Proof.
  unfold handlePlayerCollision, resolveContact, resetPlayerAfterHit.
  respects_tac.
Qed.
#[local] Hint Resolve respects_forEachEntity respects_handlePlayerCollision : draws.

Lemma respects_collideAll (todo : list Entity) :
  forall state survivors, respects (collideAll state todo survivors).
Proof.
  induction todo as [|e todo IH]; intros state survivors; cbn [collideAll];
    respects_tac.
Qed.
#[local] Hint Resolve respects_collideAll : draws.

Lemma respects_tickGame (fuel : nat) (prev : GameState) (input : InputState)
    (dtMs : Q) :
  respects (tickGame fuel prev input dtMs).
Proof. unfold tickGame, simulate, maybeSpawn. respects_tac. Qed.
#[local] Hint Resolve respects_tickGame : draws.








End Engine.

(** * Closed examples *)

(** C5 (witness): a game-over state ticked with idle input. *)
Lemma tick_outside_play_witness :
  exists s',
    tickGame hypot_approx sin_zero 0 (sample_state gameOver sample_player [] sample_run)
      idle 16 sample_rng = (Some s', sample_rng)
    /\ mode s' = gameOver /\ player s' = sample_player
    /\ entities s' = [] /\ run s' = sample_run
    /\ spawnTimers s' = mkTimers 0 0 0 0
    /\ apexThreat s' = mkThreat 0 0 (-999) (-999).
Proof.
  apply (tick_outside_play hypot_approx sin_zero 0
           (sample_state gameOver sample_player [] sample_run) idle 16 sample_rng).
  right. left. reflexivity.
Defined.

(** C5 (counterexample): a paused state ticked with the pause toggle
    comes back in mode [playing] with its run time advanced and its
    spawn timers moved: more than the mode has changed. *)
Lemma paused_toggle_tick_mutates :
  mode (sample_state paused sample_player [] sample_run) = paused
  /\ exists s',
       fst (tickGame hypot_approx sin_zero 0
              (sample_state paused sample_player [] sample_run)
              toggle 16 sample_rng) = Some s'
       /\ mode s' = playing
       /\ ~ timeSeconds (run s') == timeSeconds sample_run
       /\ ~ timer_prey (spawnTimers s') == 0.
Proof.
  split; [reflexivity|].
  eexists. split; [vm_compute; reflexivity|].
  split; [reflexivity|]. split; intro H; vm_compute in H; discriminate.
Qed.



(** C6 (witness): the sample apex with one point of health, hit on its tail. *)
Lemma apex_kill_on_last_health_witness :
  let state := sample_state playing sample_player [sample_apex_tail] sample_run in
  let points := pointsForApexTailHit (scoreMultiplier (difficulty state)) in
  let damage := apexTailDamageForPlayer (sizeTier (player state)) in
  exists r hp iv,
    handlePlayerCollision hypot_approx state sample_apex_tail sample_rng
    = (r, sample_rng)
    /\ consumed r = true
    /\ events r = [ EvApexHit (id sample_apex_tail) damage hp 1 points
                      (pos sample_apex_tail);
                    EvScore points;
                    EvApexIntensity iv;
                    EvScore (points * 2);
                    EvApexKilled (id sample_apex_tail) (points * 2)
                      (pos sample_apex_tail) ]
    /\ hp == 0
    /\ intensity (apexThreat (c_state r)) = 0
    /\ score (run (c_state r)) = score (run state) + points + points * 2
    /\ forall rest survivors,
         collideAll hypot_approx state (sample_apex_tail :: rest) survivors sample_rng
         = collideAll hypot_approx (push_events (c_state r) (events r)) rest
             survivors sample_rng.
Proof.
  intro state.
  apply (apex_kill_on_last_health hypot_approx state sample_apex_tail
           (mkCombat 1 1 0.6 (-1) (-999)) sample_rng);
    vm_compute; reflexivity.
Defined.

(** C6 (counterexample): in the tick that kills the sample apex, the
    event that follows the apex-hit event is a score event; the
    apex-killed event comes fifth. *)
Lemma apex_kill_events_not_adjacent :
  let state := sample_state playing sample_player [sample_apex_tail] sample_run in
  tailHitReady state sample_apex_tail (mkCombat 1 1 0.6 (-1) (-999)) = true
  /\ exists s',
       fst (tickGame hypot_approx sin_zero 5 state idle 16 sample_rng) = Some s'
       /\ entities s' = []
       /\ match pendingEvents s' with
          | EvApexHit _ _ hp _ _ _ :: EvScore _ :: EvApexIntensity _ :: EvScore _
            :: EvApexKilled _ _ _ :: _ => hp == 0
          | _ => False
          end.
Proof.
  intro state. split; [vm_compute; reflexivity|].
  eexists. split; [vm_compute; reflexivity|].
  split; [reflexivity|]. vm_compute. reflexivity.
Qed.

(** C4 (counterexample): no apex is active and the prior intensity is
    0.5.  A decay by the factor 0.98 would give 0.49; the code gives
    0.48, in [updateApexThreatState] and in the whole tick. *)
Lemma threat_decay_is_not_geometric :
  let state := set_apexThreat (sample_state playing sample_player [] sample_run)
                 (mkThreat 0 0.5 (-999) (-999)) in
  activeApex state = []
  /\ intensity (apexThreat (updateApexThreatState state)) == 0.48
  /\ ~ intensity (apexThreat (updateApexThreatState state)) == 0.5 * 0.98
  /\ exists s',
       fst (tickGame hypot_approx sin_zero 0 state idle 16 sample_rng) = Some s'
       /\ intensity (apexThreat s') == 0.48
       /\ ~ intensity (apexThreat s') == 0.5 * 0.98.
Proof.
  intro state. split; [reflexivity|].
  split; [vm_compute; reflexivity|].
  split; [intro H; vm_compute in H; discriminate|].
  eexists. split; [vm_compute; reflexivity|].
  split; [vm_compute; reflexivity|intro H; vm_compute in H; discriminate].
Qed.

(** C8 (counterexample): the prey population is at its cap, so the kind
    is not eligible to spawn; its timer accumulates the elapsed time all
    the same, in [maybeSpawnKind] and in the whole tick. *)
Lemma spawn_timer_accumulates_at_cap :
  let state := sample_state playing sample_player [sample_prey] sample_run in
  isKindUnlocked state prey = true
  /\ countByKind state prey == spawnCapForKind state prey
  /\ timer_prey (spawnTimers state) == 0
  /\ timer_prey (spawnTimers (fst (maybeSpawnKind hypot_approx 0.016 state prey
                                     sample_rng))) == 0.016
  /\ exists s',
       fst (tickGame hypot_approx sin_zero 0 state idle 16 sample_rng) = Some s'
       /\ timer_prey (spawnTimers s') == 0.016
       /\ length (entities s') = 1%nat.
Proof.
  intro state. repeat split; try (vm_compute; reflexivity).
  eexists. split; [vm_compute; reflexivity|].
  split; vm_compute; reflexivity.
Qed.

(** C7 (witness): a tier-2 player whose score, 2500, has passed the
    thresholds 1000 and 2000. *)
Lemma growth_on_threshold_witness :
  let state := sample_state playing sample_player []
                 (mkRun 2500 30 0 0 1000 6000 0) in
  let tier := sizeTier (player state) + 1 in
  (forall fuel, exists state1,
      growthLoop (S fuel) state = growthLoop fuel state1
      /\ sizeTier (player state1) = tier
      /\ player_radius (player state1) = playerRadiusForSizeTier tier
      /\ pendingEvents state1 = pendingEvents state ++ [ EvGrowth tier ]
      /\ nextGrowthScore (run state1) = nextGrowthScore (run state) + 1000
      /\ score (run state1) = score (run state))
  /\ (nextGrowthScore (run state) + 1000 <= score (run state) ->
      tier < MAX_SIZE_TIER ->
      0 < extraLifeScoreStep (difficulty state) ->
      exists fuel s' rest,
        updateGrowthAndLives fuel state = Some s'
        /\ pendingEvents s'
           = pendingEvents state ++ EvGrowth tier :: EvGrowth (tier + 1) :: rest).
Proof.
  intro state.
  apply (growth_on_threshold state); vm_compute; first [reflexivity|discriminate].
Defined.




(** C3 (the code at the failing input): a size-3 fish bites the tier-2
    player at (600, 300) while another one rests at (180, 270).  The
    tick takes a life, respawns the player at (172.8, 270) with no
    velocity and with the grace period of 2 seconds - and returns both
    fish: the one at (180, 270) is 7.2 units from the player, far inside
    the radius of 120 that [resetPlayerAfterHit] filters on. *)
Lemma respawn_cull_is_lost :
  let state := sample_state playing sample_player_far
                 [sample_biter; sample_lurker] sample_run in
  exists s' e1 e2,
    fst (tickGame hypot_approx sin_zero 0 state idle 16 sample_rng) = Some s'
    /\ pendingEvents s' = [ EvPlayerHit 2 ]
    /\ lives (player s') == 2
    /\ x (player_pos (player s')) == 172.8
    /\ y (player_pos (player s')) == 270
    /\ player_vel (player s') = mkVec2 0 0
    /\ invulnerableUntil (player s') == timeSeconds (run s') + 2
    /\ entities s' = [e1; e2]
    /\ id e2 = 2
    /\ dist hypot_approx (pos e2) (player_pos (player s')) <= 120
    /\ Qlt_bool 120 (dist hypot_approx (pos e2) (player_pos (player s'))) = false.
Proof.
  intro state. do 3 eexists.
  split; [vm_compute; reflexivity|].
  split; [reflexivity|].
  split; [vm_compute; reflexivity|].
  split; [vm_compute; reflexivity|].
  split; [vm_compute; reflexivity|].
  split; [reflexivity|].
  split; [vm_compute; reflexivity|].
  split; [reflexivity|].
  split; [reflexivity|].
  split; [vm_compute; discriminate|vm_compute; reflexivity].
Qed.
